(** * Recipe_Generator.py: the matching-and-ranking core of RecipeGenerator

    A shallow embedding of the class [RecipeGenerator] of
    [src/Recipe_Generator.py] and the properties of its four methods
    [extract_ingredients], [find_recipes], [_calculate_match_score] and
    [format_recipe].

    Conventions.
    - Python [int] is [Z]; Python [str] is [string]; a Python list is a [list].
    - The pandas row and the result dict have fixed keys and are records
      ([Row.t], [Match.t]).
    - The three library calls the class relies on are not part of the
      repository and are section variables: [fuzz.partial_ratio], [str.lower]
      and the spaCy pipeline [nlp].
    - [list(set(xs))] goes through a [gset string]; the order of its elements
      stands for the arbitrary order of a Python set, and nothing below
      depends on it.
    - A method of the class is a computation over the object [self]. *)

From Stdlib Require Import ZArith List Bool Ascii String Sorted Permutation Lia.
From Stdlib Require Import Decimal DecimalString.
From stdpp Require Import gmap strings.
Import ListNotations.

Local Open Scope Z_scope.

(** ** Data model *)

(** One row of [self.df], as [find_recipes] reads it: the columns [id],
    [name], [minutes], [ingredients], [steps] and [n_ingredients]. *)
Module Row.
Record t : Type := mk {
  id : Z;
  name : string;
  minutes : Z;
  ingredients : list string;
  steps : list string;
  n_ingredients : Z
}.
End Row.

(** The dict appended to [matches] in [find_recipes]. *)
Module Match.
Record t : Type := mk {
  id : Z;
  name : string;
  time : Z;
  score : Z;
  ingredients : list string;
  steps : list string;
  n_ingredients : Z
}.
End Match.

(** A spaCy token, reduced to the three attributes [extract_ingredients]
    reads. *)
Module Token.
Record t : Type := mk {
  pos_ : string;
  is_stop : bool;
  lemma_ : string
}.
End Token.

(** The object: [self.df] is the only attribute. *)
Record RecipeGenerator : Type := { df : list Row.t }.

(** ** Methods as computations over [self] *)

Module Method.
Definition M (A : Type) : Type := RecipeGenerator -> A * RecipeGenerator.

Definition ret {A} (a : A) : M A := fun self => (a, self).

Definition bind {A B} (m : M A) (k : A -> M B) : M B :=
  fun self => let (a, self') := m self in k a self'.

(** Reading the attribute [self.df]. *)
Definition get_df : M (list Row.t) := fun self => (df self, self).

Definition result {A} (m : M A) (self : RecipeGenerator) : A := fst (m self).
Definition after {A} (m : M A) (self : RecipeGenerator) : RecipeGenerator :=
  snd (m self).
End Method.

Notation "x <- m ;; k" := (Method.bind m (fun x => k))
  (at level 100, m at next level, right associativity).

(** ** Built-in list operations *)

(** [l[:n]]: the first [n] elements for [n >= 0], all but the last [-n] for
    [n < 0]. *)
Definition slice_to {A} (l : list A) (n : Z) : list A :=
  if 0 <=? n then firstn (Z.to_nat n) l
  else firstn (Z.to_nat (Z.of_nat (length l) + n)) l.

(** [matches.sort(key=lambda x: x['score'], reverse=True)].  [list.sort] is a
    stable sort, and [reverse=True] keeps elements with equal keys in their
    original order; the result is the only list with these properties (see
    [stable_sort_unique]), so a stable insertion sort computes it. *)
Fixpoint insert_by_score (x : Match.t) (l : list Match.t) : list Match.t :=
  match l with
  | [] => [x]
  | y :: l' =>
      if Match.score x <? Match.score y then y :: insert_by_score x l'
      else x :: l
  end.

Definition sort_by_score_desc (l : list Match.t) : list Match.t :=
  fold_right insert_by_score [] l.

(** The results of one score, in the order of the list. *)
Definition with_score (s : Z) (l : list Match.t) : list Match.t :=
  List.filter (fun m => Match.score m =? s) l.

(** Scores never go up from one result to the next. *)
Definition score_desc (a b : Match.t) : Prop := Match.score b <= Match.score a.


(** ** [format_recipe] *)

(** The line feed of the f-strings. *)
Definition LF : ascii := "010"%char.
Definition nl : string := String LF "".

(** [str(n)] of an [int], as the f-string fields render it. *)
Definition str_int (n : Z) : string := NilZero.string_of_int (Z.to_int n).

(** [enumerate(l)], counting from [i]. *)
Fixpoint enumerate_from {A} (i : Z) (l : list A) : list (Z * A) :=
  match l with
  | [] => []
  | x :: l' => (i, x) :: enumerate_from (i + 1) l'
  end.

Definition enumerate {A} (l : list A) : list (Z * A) := enumerate_from 0 l.

(** [f"- {ing}"] *)
Definition ingredient_line (ing : string) : string := "- " +:+ ing.

(** [f"{i+1}. {step}"] *)
Definition step_line (numbered : Z * string) : string :=
  let (i, step) := numbered in str_int (i + 1) +:+ ". " +:+ step.

Definition format_recipe (recipe : Match.t) : string :=
  let output :=
    nl +:+ "Recipe: " +:+ Match.name recipe
       +:+ " (ID: " +:+ str_int (Match.id recipe) +:+ ")" in
  let output :=
    output +:+ (nl +:+ "Time: " +:+ str_int (Match.time recipe) +:+ " minutes") in
  let output :=
    output +:+ (nl +:+ nl +:+ "Ingredients ("
                   +:+ str_int (Match.n_ingredients recipe) +:+ "):") in
  let output :=
    output +:+ (nl +:+ String.concat nl
                         (map ingredient_line (Match.ingredients recipe))) in
  let output := output +:+ (nl +:+ nl +:+ "Steps:") in
  let output :=
    output +:+ (nl +:+ String.concat nl
                         (map step_line (enumerate (Match.steps recipe)))) in
  output.

(** ** Reading a rendering back

    The class has no reader for its own rendering.  The round trip of the
    specification is stated against this one, which follows the layout
    [format_recipe] writes: five heading lines, then one line ["- " ++ ing]
    per ingredient, up to the first line that does not start with ["- "]. *)

(** [s.split("\n")] *)
Fixpoint split_lines (s : string) : list string :=
  match s with
  | EmptyString => [EmptyString]
  | String c s' =>
      if Ascii.eqb c LF then EmptyString :: split_lines s'
      else match split_lines s' with
           | [] => [String c EmptyString]
           | line :: lines => String c line :: lines
           end
  end.

Fixpoint take_while {A} (p : A -> bool) (l : list A) : list A :=
  match l with
  | [] => []
  | x :: l' => if p x then x :: take_while p l' else []
  end.

(** [s[n:]] *)
Fixpoint drop_chars (n : nat) (s : string) : string :=
  match n, s with
  | O, _ => s
  | S n', String _ s' => drop_chars n' s'
  | S _, EmptyString => EmptyString
  end.


(** The five lines before the ingredient list: an empty one, the name and id,
    the time, an empty one and the ingredient count. *)
Definition heading (recipe : Match.t) : string :=
  nl +:+ ("Recipe: " +:+ Match.name recipe
            +:+ " (ID: " +:+ str_int (Match.id recipe) +:+ ")")
     +:+ nl +:+ ("Time: " +:+ str_int (Match.time recipe) +:+ " minutes")
     +:+ nl +:+ EmptyString
     +:+ nl +:+ ("Ingredients (" +:+ str_int (Match.n_ingredients recipe) +:+ "):").

(** The steps as an ordered list numbered from [k]: ["k. step"], then
    ["k+1. step"], and so on. *)
Fixpoint numbered_from (k : Z) (steps : list string) : list string :=
  match steps with
  | [] => []
  | step :: rest => (str_int k +:+ ". " +:+ step) :: numbered_from (k + 1) rest
  end.

(** A string with no line feed in it. *)
Fixpoint one_line (s : string) : bool :=
  match s with
  | EmptyString => true
  | String c s' => negb (Ascii.eqb c LF) && one_line s'
  end.


(** Two well-formed results that differ only in where their ingredient lists
    are cut: a line feed inside an ingredient against a new list element. *)
Definition soup_a : Match.t :=
  Match.mk 7 "soup" 20 1 ["salt" +:+ nl +:+ "- pepper"; "oil"] ["boil"] 2.

(** Two results with one-line ingredients; the name of the second one holds
    a whole rendering. *)
Definition stew_a : Match.t :=
  Match.mk 1 "n" 1 1 ["a"]
    ["s (ID: 7)" +:+ nl +:+ "Time: 2 minutes" +:+ nl +:+ nl +:+ "Ingredients (1):"
       +:+ nl +:+ "- b" +:+ nl +:+ nl +:+ "Steps:" +:+ nl +:+ "1. t"] 1.
Definition stew_b : Match.t :=
  Match.mk 7
    ("n (ID: 1)" +:+ nl +:+ "Time: 1 minutes" +:+ nl +:+ nl +:+ "Ingredients (1):"
       +:+ nl +:+ "- a" +:+ nl +:+ nl +:+ "Steps:" +:+ nl +:+ "1. s")
    2 1 ["b"] ["t"] 1.

(** A joined block of lines read back with [split("\n")]: the join of no
    line at all is the empty string, which still reads as one empty line. *)
Definition block (lines : list string) : list string :=
  match lines with
  | [] => [EmptyString]
  | _ :: _ => lines
  end.

(** ** [main]: what a run does and how it ends *)

(** The exceptions a run of [main] can end in. *)
Inductive exn : Type := ValueError | IndexError | EOFError.

(** What a run does on the console: [print(line)] and the prompt written by
    [input(prompt)]. *)
Inductive event : Type :=
| Print (line : string)
| Input (prompt : string).

(** [l[i]]: from the end for a negative [i], [None] for [IndexError]. *)
Definition py_index {A} (l : list A) (i : Z) : option A :=
  if 0 <=? i then nth_error l (Z.to_nat i)
  else if - Z.of_nat (length l) <=? i
       then nth_error l (Z.to_nat (Z.of_nat (length l) + i))
       else None.

(** ** Stand-ins for the library calls, to run the code on examples *)

Definition lower_char (c : ascii) : ascii :=
  let n := nat_of_ascii c in
  if ((65 <=? n) && (n <=? 90))%nat then ascii_of_nat (n + 32) else c.

(** [str.lower] on ASCII text. *)
Fixpoint ascii_lower (s : string) : string :=
  match s with
  | EmptyString => EmptyString
  | String c s' => String (lower_char c) (ascii_lower s')
  end.

(** A ratio that is 100 when [a] occurs in [b] and 0 otherwise; for a
    non-empty [a] that occurs in [b], [fuzz.partial_ratio] is 100 as well. *)
Definition occurs_ratio (a b : string) : Z :=
  match index 0 a b with
  | Some _ => 100
  | None => 0
  end.

(** A ratio stuck at the threshold. *)
Definition ratio_75 (_ _ : string) : Z := 75.

(** [str.strip] for blanks. *)
Fixpoint lstrip (s : string) : string :=
  match s with
  | String " " s' => lstrip s'
  | _ => s
  end.

Fixpoint rstrip (s : string) : string :=
  match s with
  | EmptyString => EmptyString
  | String c s' =>
      match rstrip s' with
      | EmptyString => if Ascii.eqb c " " then EmptyString else String c EmptyString
      | r => String c r
      end
  end.

Definition blank_strip (s : string) : string := rstrip (lstrip s).

Definition digit_of_char (c : ascii) : option Z :=
  let n := nat_of_ascii c in
  if ((48 <=? n) && (n <=? 57))%nat then Some (Z.of_nat n - 48) else None.

(** [int] on a string of ASCII digits; [None] on anything else. *)
Fixpoint digits_value (acc : Z) (s : string) : option Z :=
  match s with
  | EmptyString => Some acc
  | String c s' =>
      match digit_of_char c with
      | Some d => digits_value (10 * acc + d) s'
      | None => None
      end
  end.

Definition digits_int (s : string) : option Z :=
  match s with
  | EmptyString => None
  | _ => digits_value 0 s
  end.

(** [str.isdigit] on ASCII text. *)
Definition digits_isdigit (s : string) : bool :=
  match digits_int s with Some _ => true | None => false end.

(** An analyser that knows one sentence. *)
Definition sample_nlp (text : string) : list Token.t :=
  if String.eqb text "i have eggs and butter and eggs" then
    [ Token.mk "PRON" true "I"; Token.mk "VERB" true "have";
      Token.mk "NOUN" false "egg"; Token.mk "CCONJ" true "and";
      Token.mk "NOUN" false "butter"; Token.mk "CCONJ" true "and";
      Token.mk "NOUN" false "egg" ]
  else [].

Definition sample_df : list Row.t :=
  [ Row.mk 1 "toast" 5 ["Bread"; "Butter"] ["toast the bread"; "spread"] 2;
    Row.mk 2 "omelette" 10 ["Eggs"; "Butter"; "Salt"] ["beat"; "fry"] 3;
    Row.mk 3 "salad" 7 ["Lettuce"; "Tomato"] ["chop"; "mix"] 2;
    Row.mk 4 "fried egg" 4 ["eggs"; "butter"] ["fry"] 2 ].

Definition sample_generator : RecipeGenerator := {| df := sample_df |}.

(** ** The class *)

Section RecipeGenerator.

(** [fuzz.partial_ratio(a, b)] *)
Variable partial_ratio : string -> string -> Z.
(** [s.lower()] *)
Variable lower : string -> string.
(** [nlp(text)], the tokens of the analysed document *)
Variable nlp : string -> list Token.t.

(** The inner loop of [_calculate_match_score] for one [user_ing]: the
    first ingredient with a ratio above 75 adds one to [score] and leaves
    the loop ([break]). *)
Fixpoint scan_recipe_ingredients (user_ing : string)
    (recipe_ingredients_lower : list string) (score : Z) : Z :=
  match recipe_ingredients_lower with
  | [] => score
  | recipe_ing :: rest =>
      if partial_ratio user_ing recipe_ing >? 75 then score + 1
      else scan_recipe_ingredients user_ing rest score
  end.

Definition _calculate_match_score (user_ingredients : list string)
    (recipe_ingredients : list string) : Z :=
  let score := 0 in
  let recipe_ingredients_lower := map lower recipe_ingredients in
  fold_left
    (fun score user_ing =>
       scan_recipe_ingredients user_ing recipe_ingredients_lower score)
    user_ingredients score.

(** The specification's reading of the score: the query terms that have
    at least one ingredient whose lower-cased form has a ratio above 75. *)
Definition term_matches (recipe_ingredients : list string) (term : string) : bool :=
  existsb (fun ing => 75 <? partial_ratio term (lower ing)) recipe_ingredients.

Definition matching_terms (terms recipe_ingredients : list string) : list string :=
  List.filter (term_matches recipe_ingredients) terms.

(** The dict built for a row with score [match_score]. *)
Definition match_of_row (row : Row.t) (match_score : Z) : Match.t :=
  {| Match.id := Row.id row;
     Match.name := Row.name row;
     Match.time := Row.minutes row;
     Match.score := match_score;
     Match.ingredients := Row.ingredients row;
     Match.steps := Row.steps row;
     Match.n_ingredients := Row.n_ingredients row |}.

(** Every row of the catalog as the dict it would give, with its score, in
    the order of the catalog. *)
Definition scored_rows (user_ingredients : list string)
    (rows : list Row.t) : list Match.t :=
  map (fun row =>
         match_of_row row
           (_calculate_match_score user_ingredients (Row.ingredients row)))
      rows.

(** The rows of the catalog with a positive score, in catalog order. *)
Definition matching_rows (user_ingredients : list string)
    (rows : list Row.t) : list Row.t :=
  List.filter
    (fun row => _calculate_match_score user_ingredients (Row.ingredients row) >? 0)
    rows.

(** The body of the loop over [self.df.iterrows()]: [matches.append] of a
    new dict when the score is positive. *)
Definition scan_row (user_ingredients : list string)
    (matches : list Match.t) (row : Row.t) : list Match.t :=
  let match_score :=
    _calculate_match_score user_ingredients (Row.ingredients row) in
  if match_score >? 0 then matches ++ [match_of_row row match_score]
  else matches.

(** [matches] when the loop over the rows is done. *)
Definition collect_matches (user_ingredients : list string)
    (rows : list Row.t) : list Match.t :=
  fold_left (scan_row user_ingredients) rows [].

Definition find_recipes (user_ingredients : list string) (max_recipes : Z)
    : Method.M (list Match.t) :=
  rows <- Method.get_df ;;
  let matches := collect_matches user_ingredients rows in
  let matches := sort_by_score_desc matches in
  Method.ret (slice_to matches max_recipes).

(** [extract_ingredients]: the lemmas of the noun and proper-noun tokens
    that are not stop words, then [list(set(ingredients))]. *)
Definition keep_token (token : Token.t) : bool :=
  existsb (String.eqb (Token.pos_ token)) ["NOUN"; "PROPN"]%string
  && negb (Token.is_stop token).

Definition collect_lemmas (doc : list Token.t) : list string :=
  fold_left
    (fun ingredients token =>
       if keep_token token then ingredients ++ [Token.lemma_ token]
       else ingredients)
    doc [].

Definition extract_ingredients (user_input : string) : list string :=
  let doc := nlp (lower user_input) in
  let ingredients := collect_lemmas doc in
  elements (list_to_set ingredients : gset string).

(** ** The command loop *)

(** [s.strip()] *)
Variable strip : string -> string.
(** [s.isdigit()] *)
Variable isdigit : string -> bool.
(** [int(s)]; [None] when it raises [ValueError] *)
Variable int_of : string -> option Z.

(** One line of the listing:
    [f"{i}. {name} ({time} min) - Score: {score}/{len(ingredients)}"]. *)
Definition listing_line (n_ingredients : Z) (numbered : Z * Match.t) : string :=
  let (i, recipe) := numbered in
  str_int i +:+ ". " +:+ Match.name recipe
    +:+ " (" +:+ str_int (Match.time recipe) +:+ " min) - Score: "
    +:+ str_int (Match.score recipe) +:+ "/" +:+ str_int n_ingredients.

(** The answer to the second prompt: the details of [recipes[int(choice)-1]]
    when [choice.isdigit() and 1 <= int(choice) <= len(recipes)]. *)
Definition view_details (recipes : list Match.t) (choice : string)
    : list event * option exn :=
  if isdigit choice then
    match int_of choice with
    | None => ([], Some ValueError)
    | Some number =>
        if (1 <=? number) && (number <=? Z.of_nat (length recipes)) then
          match py_index recipes (number - 1) with
          | Some recipe => ([Print (format_recipe recipe)], None)
          | None => ([], Some IndexError)
          end
        else ([], None)
    end
  else ([], None).

(** A line that ends the loop: [quit] or [exit] once stripped and
    lower-cased. *)
Definition quits (line : string) : Prop :=
  lower (strip line) = "quit"%string \/ lower (strip line) = "exit"%string.

(** The [while True] loop of [main] against the lines typed at the console;
    [input] raises [EOFError] when they run out. *)
Fixpoint main_loop (self : RecipeGenerator) (inputs : list string)
    : list event * option exn :=
  let ask := Input (nl +:+ "What ingredients do you have? ") in
  match inputs with
  | [] => ([ask], Some EOFError)
  | line :: rest =>
      let user_input := strip line in
      if existsb (String.eqb (lower user_input)) ["quit"; "exit"]%string then
        ([ask], None)
      else
        let ingredients := extract_ingredients user_input in
        let looking :=
          Print (nl +:+ "Looking for recipes with: "
                    +:+ String.concat ", " ingredients) in
        let (recipes, self) := find_recipes ingredients 5 self in
        match recipes with
        | _ :: _ =>
            let found :=
              Print (nl +:+ "Found " +:+ str_int (Z.of_nat (length recipes))
                        +:+ " matching recipes:") in
            let listing :=
              map (fun numbered =>
                     Print (listing_line (Z.of_nat (length ingredients)) numbered))
                  (enumerate_from 1 recipes) in
            let choose :=
              Input (nl +:+ "Enter recipe number to view details, or 'back' to search again: ") in
            match rest with
            | [] => (ask :: looking :: found :: listing ++ [choose], Some EOFError)
            | choice :: rest' =>
                let (shown, raised) := view_details recipes choice in
                match raised with
                | Some e =>
                    (ask :: looking :: found :: listing ++ choose :: shown, Some e)
                | None =>
                    let (events, ended) := main_loop self rest' in
                    (ask :: looking :: found :: listing ++ choose :: shown ++ events,
                     ended)
                end
            end
        | [] =>
            let none_found :=
              Print (nl +:+ "No recipes found with those ingredients. Try different ones.") in
            let (events, ended) := main_loop self rest in
            (ask :: looking :: none_found :: events, ended)
        end
  end.

(** [main] with the generator it has loaded. *)
Definition main (self : RecipeGenerator) (inputs : list string)
    : list event * option exn :=
  let (events, ended) := main_loop self inputs in
  (Print "=== Simple AI Recipe Generator ==="
     :: Print "Example inputs: 'I have eggs and butter', 'chicken recipes', 'quick pasta'"
     :: Print ("Type 'quit' to exit" +:+ nl)
     :: events,
   ended).

(** * Properties *)

(** ** The match score *)

Section MatchScore.

(** One term adds one exactly when some ingredient passes the test. *)
Lemma scan_existsb term ings score :
  scan_recipe_ingredients term ings score
  = score + (if existsb (fun ing => 75 <? partial_ratio term ing) ings then 1 else 0).
Proof.
  induction ings as [|ing ings IH]; simpl.
  - lia.
  - rewrite Z.gtb_ltb. destruct (75 <? partial_ratio term ing); simpl; [reflexivity | exact IH].
Qed.

(** The ingredients behind the first match are never looked at. *)
Lemma scan_first_match term before ing behind score :
  75 < partial_ratio term ing ->
  scan_recipe_ingredients term (before ++ ing :: behind) score = score + 1.
Proof.
  intros Hgt. rewrite scan_existsb, existsb_app. simpl.
  apply Z.ltb_lt in Hgt. rewrite Hgt, orb_true_r. reflexivity.
Qed.

Lemma scan_at_most_one term ings score :
  score <= scan_recipe_ingredients term ings score <= score + 1.
Proof. rewrite scan_existsb. destruct (existsb _ ings); lia. Qed.

Lemma existsb_map_lower term ings :
  existsb (fun ing => 75 <? partial_ratio term ing) (map lower ings)
  = term_matches ings term.
Proof.
  unfold term_matches. induction ings as [|ing ings IH]; simpl; [reflexivity|].
  rewrite IH. reflexivity.
Qed.

Lemma fold_scan_count terms ings score :
  fold_left (fun score user_ing => scan_recipe_ingredients user_ing (map lower ings) score) terms score
  = score + Z.of_nat (length (matching_terms terms ings)).
Proof.
  revert score. induction terms as [|term terms IH]; intros score; simpl.
  - lia.
  - rewrite IH, scan_existsb, existsb_map_lower. unfold matching_terms. simpl.
    destruct (term_matches ings term); simpl length; lia.
Qed.

Lemma match_score_count terms ings :
  _calculate_match_score terms ings = Z.of_nat (length (matching_terms terms ings)).
Proof. unfold _calculate_match_score. rewrite fold_scan_count. lia. Qed.

Lemma matching_terms_length terms ings :
  (length (matching_terms terms ings) <= length terms)%nat.
Proof. apply List.filter_length_le. Qed.

(** C1. For every list of query terms and every recipe, the match score
    equals the number of query terms for which at least one recipe
    ingredient is sufficiently similar; each term contributes at most one,
    so the score lies between 0 and the number of terms. *)
Theorem match_score_is_matching_term_count (terms ings : list string) :
  _calculate_match_score terms ings = Z.of_nat (length (matching_terms terms ings))
  /\ 0 <= _calculate_match_score terms ings <= Z.of_nat (length terms).
Proof.
  split; [apply match_score_count|].
  rewrite match_score_count. pose proof (matching_terms_length terms ings). lia.
Qed.

(** C2. A query term counts as matching a recipe ingredient exactly when
    the partial ratio between the term and the lower-cased ingredient is
    strictly greater than 75; at 75 and below it does not count. *)
Theorem term_counts_iff_ratio_above_75 (term ing : string) :
  (_calculate_match_score [term] [ing] = 1 <-> 75 < partial_ratio term (lower ing))
  /\ (_calculate_match_score [term] [ing] = 0 <-> partial_ratio term (lower ing) <= 75).
Proof.
  unfold _calculate_match_score. simpl. rewrite Z.gtb_ltb.
  destruct (Z.ltb_spec 75 (partial_ratio term (lower ing))); simpl; lia.
Qed.

(** C10. The match score does not depend on the order of the query terms:
    any permutation of the term list gives the same score. *)
Theorem match_score_permutation_invariant (terms terms' ings : list string) :
  Permutation terms terms' ->
  _calculate_match_score terms ings = _calculate_match_score terms' ings.
Proof.
  intros Hperm. rewrite !match_score_count. f_equal.
  apply Permutation_length. unfold matching_terms.
  induction Hperm; simpl.
  - constructor.
  - destruct (term_matches ings x); [constructor|]; assumption.
  - destruct (term_matches ings x), (term_matches ings y);
      solve [apply perm_swap | apply Permutation_refl].
  - etransitivity; eassumption.
Qed.

Lemma match_score_no_terms ings : _calculate_match_score [] ings = 0.
Proof. reflexivity. Qed.

End MatchScore.

(** ** Sorting by score *)

Section SortByScore.

Lemma insert_by_score_perm x l : Permutation (insert_by_score x l) (x :: l).
Proof.
  induction l as [|y l IH]; simpl; [reflexivity|].
  destruct (Match.score x <? Match.score y); [|reflexivity].
  rewrite IH. apply perm_swap.
Qed.

Lemma sort_by_score_desc_perm l : Permutation (sort_by_score_desc l) l.
Proof.
  induction l as [|x l IH]; simpl; [reflexivity|].
  rewrite insert_by_score_perm. constructor. exact IH.
Qed.

Lemma insert_by_score_hd x y l :
  score_desc y x -> HdRel score_desc y l -> HdRel score_desc y (insert_by_score x l).
Proof.
  intros Hyx Hhd. destruct l as [|z l]; simpl; [constructor; exact Hyx|].
  destruct (Match.score x <? Match.score z); constructor;
    [inversion Hhd; assumption | exact Hyx].
Qed.

Lemma insert_by_score_sorted x l :
  Sorted score_desc l -> Sorted score_desc (insert_by_score x l).
Proof.
  induction 1 as [|y l Hsorted IH Hhd]; simpl.
  - repeat constructor.
  - destruct (Z.ltb_spec (Match.score x) (Match.score y)).
    + constructor; [exact IH|]. apply insert_by_score_hd; [|exact Hhd].
      unfold score_desc. lia.
    + constructor; [constructor; assumption|]. constructor. unfold score_desc. lia.
Qed.

Lemma sort_by_score_desc_sorted l : Sorted score_desc (sort_by_score_desc l).
Proof.
  induction l as [|x l IH]; simpl; [constructor|].
  apply insert_by_score_sorted, IH.
Qed.

Lemma with_score_cons s x l :
  with_score s (x :: l)
  = if Match.score x =? s then x :: with_score s l else with_score s l.
Proof. reflexivity. Qed.

(** Insertion moves [x] only past results of another score. *)
Lemma insert_by_score_stable s x l :
  with_score s (insert_by_score x l) = with_score s (x :: l).
Proof.
  induction l as [|y l IH]; simpl insert_by_score; [reflexivity|].
  destruct (Z.ltb_spec (Match.score x) (Match.score y)) as [Hlt|Hge]; [|reflexivity].
  rewrite with_score_cons, IH, !with_score_cons.
  destruct (Z.eqb_spec (Match.score y) s), (Z.eqb_spec (Match.score x) s);
    try reflexivity; lia.
Qed.

Lemma sort_by_score_desc_stable s l :
  with_score s (sort_by_score_desc l) = with_score s l.
Proof.
  induction l as [|x l IH]; simpl sort_by_score_desc; [reflexivity|].
  rewrite insert_by_score_stable, !with_score_cons, IH. reflexivity.
Qed.

#[local] Instance score_desc_trans : Transitive score_desc.
Proof. unfold score_desc. intros a b c ? ?. lia. Qed.

Lemma with_score_In s m l : In m (with_score s l) <-> In m l /\ Match.score m = s.
Proof. unfold with_score. rewrite filter_In, Z.eqb_eq. reflexivity. Qed.

Lemma with_score_head x l : with_score (Match.score x) (x :: l) = x :: with_score (Match.score x) l.
Proof. rewrite with_score_cons, Z.eqb_refl. reflexivity. Qed.

(** In a sorted list nothing behind the head has a higher score. *)
Lemma sorted_head_max x l m :
  Sorted score_desc (x :: l) -> In m (x :: l) -> Match.score m <= Match.score x.
Proof.
  intros Hs Hin. apply Sorted_StronglySorted in Hs; [|exact score_desc_trans].
  inversion Hs as [|? ? _ Hall]; subst. destruct Hin as [<-|Hin]; [lia|].
  rewrite List.Forall_forall in Hall. apply Hall, Hin.
Qed.

(** Two sorted lists that agree score by score are the same list. *)
Lemma sorted_with_score_eq l1 : forall l2,
  Sorted score_desc l1 -> Sorted score_desc l2 ->
  (forall s, with_score s l1 = with_score s l2) -> l1 = l2.
Proof.
  induction l1 as [|x l1 IH]; intros [|y l2] Hs1 Hs2 Heq.
  - reflexivity.
  - specialize (Heq (Match.score y)). rewrite with_score_head in Heq. discriminate.
  - specialize (Heq (Match.score x)). rewrite with_score_head in Heq. discriminate.
  - assert (Hxy : Match.score x = Match.score y).
    { assert (In y (x :: l1)) as Hy.
      { apply (with_score_In (Match.score y)). rewrite Heq, with_score_head. left; reflexivity. }
      assert (In x (y :: l2)) as Hx.
      { apply (with_score_In (Match.score x)). rewrite <- Heq, with_score_head. left; reflexivity. }
      pose proof (sorted_head_max _ _ _ Hs1 Hy). pose proof (sorted_head_max _ _ _ Hs2 Hx). lia. }
    pose proof (Heq (Match.score x)) as Hhead.
    rewrite with_score_head, Hxy, with_score_head in Hhead.
    injection Hhead as -> Htail. f_equal.
    apply IH; [inversion Hs1; assumption | inversion Hs2; assumption|].
    intros s. destruct (Z.eq_dec (Match.score y) s) as [<-|Hne]; [exact Htail|].
    specialize (Heq s). rewrite !with_score_cons in Heq.
    apply Z.eqb_neq in Hne. rewrite Hne in Heq. exact Heq.
Qed.

(** Every stable sort by descending score returns what
    [sort_by_score_desc] returns. *)
Lemma stable_sort_unique l l' :
  Sorted score_desc l' -> (forall s, with_score s l' = with_score s l) ->
  l' = sort_by_score_desc l.
Proof.
  intros Hsorted Hstable. apply sorted_with_score_eq;
    [exact Hsorted | apply sort_by_score_desc_sorted|].
  intros s. rewrite sort_by_score_desc_stable. apply Hstable.
Qed.

End SortByScore.

(** ** Slicing *)

Section Slice.

Context {A : Type}.

Lemma slice_to_firstn (l : list A) n : exists k, slice_to l n = firstn k l.
Proof. unfold slice_to. destruct (0 <=? n); eexists; reflexivity. Qed.

Lemma slice_to_length (l : list A) n :
  0 <= n -> Z.of_nat (length (slice_to l n)) <= n.
Proof.
  intros Hn. unfold slice_to. apply Z.leb_le in Hn as Hn'. rewrite Hn'.
  rewrite length_firstn. lia.
Qed.

Lemma firstn_Forall (P : A -> Prop) k (l : list A) :
  Forall P l -> Forall P (firstn k l).
Proof.
  intros Hall. rewrite <- (firstn_skipn k l) in Hall.
  apply List.Forall_app in Hall. apply Hall.
Qed.

Lemma firstn_Sorted (R : A -> A -> Prop) k : forall l : list A,
  Sorted R l -> Sorted R (firstn k l).
Proof.
  induction k as [|k IH]; intros l Hs; [constructor|].
  destruct l as [|x l]; [constructor|]. simpl.
  inversion Hs as [|? ? Hs' Hhd]; subst. constructor; [apply IH, Hs'|].
  destruct k; [constructor|]. destruct l as [|y l]; [constructor|].
  simpl. constructor. inversion Hhd; assumption.
Qed.

End Slice.

(** ** [find_recipes] *)

Section FindRecipes.

Lemma fold_scan_row terms rows : forall acc,
  fold_left (scan_row terms) rows acc = acc ++ collect_matches terms rows.
Proof.
  unfold collect_matches.
  induction rows as [|row rows IH]; intros acc; simpl.
  - rewrite app_nil_r. reflexivity.
  - rewrite IH, (IH (scan_row terms [] row)).
    unfold scan_row. destruct (_calculate_match_score terms _ >? 0); simpl.
    + rewrite <- app_assoc. reflexivity.
    + reflexivity.
Qed.

Lemma collect_matches_cons terms row rows :
  collect_matches terms (row :: rows)
  = (if _calculate_match_score terms (Row.ingredients row) >? 0
     then [match_of_row row (_calculate_match_score terms (Row.ingredients row))]
     else [])
    ++ collect_matches terms rows.
Proof.
  unfold collect_matches at 1. simpl. rewrite fold_scan_row.
  unfold scan_row. destruct (_calculate_match_score terms _ >? 0); reflexivity.
Qed.

(** [matches] lists the rows of positive score in the order of the
    catalog. *)
Lemma collect_matches_catalog_order terms rows :
  collect_matches terms rows
  = map (fun row => match_of_row row (_calculate_match_score terms (Row.ingredients row)))
        (List.filter (fun row => _calculate_match_score terms (Row.ingredients row) >? 0) rows).
Proof.
  induction rows as [|row rows IH]; [reflexivity|].
  rewrite collect_matches_cons, IH. simpl.
  destruct (_calculate_match_score terms _ >? 0); reflexivity.
Qed.

Lemma collect_matches_positive terms rows :
  Forall (fun m => 1 <= Match.score m) (collect_matches terms rows).
Proof.
  induction rows as [|row rows IH]; [constructor|].
  rewrite collect_matches_cons.
  destruct (Z.gtb_spec (_calculate_match_score terms (Row.ingredients row)) 0); simpl; [|exact IH].
  constructor; [simpl; lia | exact IH].
Qed.

Lemma find_recipes_run terms limit self :
  find_recipes terms limit self
  = (slice_to (sort_by_score_desc (collect_matches terms (df self))) limit, self).
Proof. reflexivity. Qed.

Lemma find_recipes_result terms limit self :
  Method.result (find_recipes terms limit) self
  = slice_to (sort_by_score_desc (collect_matches terms (df self))) limit.
Proof. reflexivity. Qed.

Lemma find_recipes_scores_positive terms limit self :
  Forall (fun m => 1 <= Match.score m) (Method.result (find_recipes terms limit) self).
Proof.
  rewrite find_recipes_result.
  destruct (slice_to_firstn (sort_by_score_desc (collect_matches terms (df self))) limit)
    as [k ->].
  apply firstn_Forall. rewrite List.Forall_forall. intros m Hin.
  apply (Permutation_in _ (sort_by_score_desc_perm _)) in Hin.
  revert m Hin. rewrite <- List.Forall_forall. apply collect_matches_positive.
Qed.

(** C3. For every list of terms, every catalog and every positive limit,
    every result returned by [find_recipes] has a score of at least 1:
    rows of score 0 never enter [matches]. *)
Theorem find_recipes_results_score_at_least_1 terms limit self :
  0 < limit ->
  Forall (fun m => 1 <= Match.score m) (Method.result (find_recipes terms limit) self).
Proof. intros _. apply find_recipes_scores_positive. Qed.

Lemma with_score_collect_matches terms rows s :
  1 <= s ->
  with_score s (collect_matches terms rows) = with_score s (scored_rows terms rows).
Proof.
  intros Hs. induction rows as [|row rows IH]; [reflexivity|].
  rewrite collect_matches_cons. unfold scored_rows. cbn [map].
  fold (scored_rows terms rows). rewrite with_score_cons. cbn [Match.score match_of_row].
  destruct (Z.gtb_spec (_calculate_match_score terms (Row.ingredients row)) 0) as [Hpos|Hnot].
  - cbn [app]. rewrite with_score_cons. cbn [Match.score match_of_row].
    rewrite IH. reflexivity.
  - cbn [app]. rewrite IH.
    destruct (Z.eqb_spec (_calculate_match_score terms (Row.ingredients row)) s);
      [lia | reflexivity].
Qed.

Lemma with_score_none s l :
  Forall (fun m => 1 <= Match.score m) l -> s < 1 -> with_score s l = [].
Proof.
  intros Hall Hs. induction Hall as [|m l Hm _ IH]; [reflexivity|].
  rewrite with_score_cons, IH. destruct (Z.eqb_spec (Match.score m) s); [lia | reflexivity].
Qed.

(** C4. The list returned by [find_recipes] is sorted by score in
    non-increasing order (each result scores at least as much as the next
    one), and ties keep the order of the catalog: the results of one score
    are, in order, the first of the rows of that score in catalog order. *)
Theorem find_recipes_sorted_and_stable terms limit self :
  let results := Method.result (find_recipes terms limit) self in
  Sorted score_desc results
  /\ forall s, exists behind,
       with_score s (scored_rows terms (df self)) = with_score s results ++ behind.
Proof.
  cbv zeta. split.
  - rewrite find_recipes_result.
    destruct (slice_to_firstn (sort_by_score_desc (collect_matches terms (df self))) limit)
      as [k ->].
    apply firstn_Sorted, sort_by_score_desc_sorted.
  - intros s. destruct (Z.lt_ge_cases s 1) as [Hlow|Hs].
    + exists (with_score s (scored_rows terms (df self))).
      rewrite (with_score_none s _ (find_recipes_scores_positive terms limit self) Hlow).
      reflexivity.
    + rewrite find_recipes_result, <- (with_score_collect_matches _ _ _ Hs).
      destruct (slice_to_firstn (sort_by_score_desc (collect_matches terms (df self))) limit)
        as [k ->].
      exists (with_score s (skipn k (sort_by_score_desc (collect_matches terms (df self))))).
      unfold with_score at 2 3. rewrite <- List.filter_app, firstn_skipn.
      symmetry. apply sort_by_score_desc_stable.
Qed.

(** C5. For every list of terms, every catalog and every limit of at least
    1, [find_recipes] returns the ranked list of matches cut down to its
    first [limit] elements, and so at most [limit] results. *)
Theorem find_recipes_at_most_limit terms limit self :
  1 <= limit ->
  Method.result (find_recipes terms limit) self
  = firstn (Z.to_nat limit) (sort_by_score_desc (collect_matches terms (df self)))
  /\ Z.of_nat (length (Method.result (find_recipes terms limit) self)) <= limit.
Proof.
  intros Hlimit. rewrite find_recipes_result. split.
  - unfold slice_to. assert ((0 <=? limit) = true) as Hpos by (apply Z.leb_le; lia).
    rewrite Hpos. reflexivity.
  - apply slice_to_length. lia.
Qed.

Lemma collect_matches_no_terms rows : collect_matches [] rows = [].
Proof.
  induction rows as [|row rows IH]; [reflexivity|].
  rewrite collect_matches_cons, IH. reflexivity.
Qed.

(** C6. With no query terms, every recipe scores 0 and [find_recipes]
    returns the empty list, for every catalog and every limit. *)
Theorem find_recipes_no_terms limit self :
  (forall row, _calculate_match_score [] (Row.ingredients row) = 0)
  /\ Method.result (find_recipes [] limit) self = [].
Proof.
  split; [reflexivity|].
  rewrite find_recipes_result, collect_matches_no_terms. simpl.
  unfold slice_to. destruct (0 <=? limit); apply firstn_nil.
Qed.

(** C9. [find_recipes] is a function of the terms, the catalog and the
    limit that only reads the object: a call leaves [self] as it found it,
    and two calls in a row with the same arguments return the same list,
    the one the catalog determines. *)
Theorem find_recipes_deterministic_and_read_only terms limit self :
  Method.after (find_recipes terms limit) self = self
  /\ (r1 <- find_recipes terms limit ;;
      r2 <- find_recipes terms limit ;;
      Method.ret (r1, r2)) self
     = let results :=
         slice_to (sort_by_score_desc (collect_matches terms (df self))) limit in
       ((results, results), self).
Proof.
  split.
  - unfold Method.after. rewrite find_recipes_run. reflexivity.
  - unfold Method.bind at 1. rewrite find_recipes_run.
    unfold Method.bind. rewrite find_recipes_run. reflexivity.
Qed.

End FindRecipes.

(** ** [extract_ingredients] *)

Section ExtractIngredients.

Lemma keep_token_spec token :
  keep_token token = true
  <-> (Token.pos_ token = "NOUN"%string \/ Token.pos_ token = "PROPN"%string)
      /\ Token.is_stop token = false.
Proof.
  unfold keep_token. simpl. rewrite andb_true_iff, negb_true_iff, orb_false_r, orb_true_iff.
  rewrite !String.eqb_eq. reflexivity.
Qed.

Lemma fold_collect_lemmas doc : forall acc,
  fold_left
    (fun ingredients token =>
       if keep_token token then ingredients ++ [Token.lemma_ token] else ingredients)
    doc acc
  = acc ++ map Token.lemma_ (List.filter keep_token doc).
Proof.
  induction doc as [|token doc IH]; intros acc; simpl.
  - rewrite app_nil_r. reflexivity.
  - rewrite IH. destruct (keep_token token); simpl; [|reflexivity].
    rewrite <- app_assoc. reflexivity.
Qed.

Lemma collect_lemmas_filter doc :
  collect_lemmas doc = map Token.lemma_ (List.filter keep_token doc).
Proof. unfold collect_lemmas. apply fold_collect_lemmas. Qed.

Lemma extract_ingredients_In text term :
  In term (extract_ingredients text)
  <-> exists token, In token (nlp (lower text))
                    /\ keep_token token = true /\ Token.lemma_ token = term.
Proof.
  unfold extract_ingredients.
  rewrite <- list_elem_of_In, elem_of_elements, elem_of_list_to_set, list_elem_of_In.
  rewrite collect_lemmas_filter, in_map_iff.
  split; intros (token & H1 & H2); exists token.
  - apply filter_In in H2. intuition.
  - rewrite filter_In. intuition.
Qed.

(** C8. For every input text, [extract_ingredients] returns a list with no
    duplicates whose elements are exactly the lemmas of the tokens of the
    lower-cased text that are tagged NOUN or PROPN and are not stop words;
    the list is empty exactly when no token qualifies. *)
Theorem extract_ingredients_distinct_noun_lemmas (text : string) :
  List.NoDup (extract_ingredients text)
  /\ (forall term,
        In term (extract_ingredients text)
        <-> exists token,
              In token (nlp (lower text))
              /\ (Token.pos_ token = "NOUN"%string \/ Token.pos_ token = "PROPN"%string)
              /\ Token.is_stop token = false
              /\ Token.lemma_ token = term)
  /\ (extract_ingredients text = []
      <-> forall token, In token (nlp (lower text)) -> keep_token token = false).
Proof.
  split; [|split].
  - unfold extract_ingredients. apply NoDup_ListNoDup, NoDup_elements.
  - intros term. rewrite extract_ingredients_In.
    split; intros (token & Hin & H); exists token; (split; [exact Hin|]).
    + destruct H as [Hkeep <-]. apply keep_token_spec in Hkeep. intuition.
    + destruct H as (Hpos & Hstop & <-). split; [|reflexivity].
      apply keep_token_spec. intuition.
  - split.
    + intros Hnil token Hin. destruct (keep_token token) eqn:Hkeep; [|reflexivity].
      assert (In (Token.lemma_ token) (extract_ingredients text)) as Habs.
      { apply extract_ingredients_In. exists token. auto. }
      rewrite Hnil in Habs. destruct Habs.
    + intros Hnone. destruct (extract_ingredients text) as [|term rest] eqn:Heq; [reflexivity|].
      assert (In term (extract_ingredients text)) as Hin by (rewrite Heq; left; reflexivity).
      apply extract_ingredients_In in Hin as (token & Hin & Hkeep & _).
      rewrite (Hnone token Hin) in Hkeep. discriminate.
Qed.

End ExtractIngredients.

(** ** More on the match score *)

Section MatchScoreAlgebra.

Lemma filter_length_mono {A} (p q : A -> bool) (l : list A) :
  (forall x, In x l -> p x = true -> q x = true) ->
  (length (List.filter p l) <= length (List.filter q l))%nat.
Proof.
  induction l as [|x l IH]; intros Hpq; [reflexivity|]. simpl.
  assert (length (List.filter p l) <= length (List.filter q l))%nat as Hle.
  { apply IH. intros y Hy. apply Hpq. right. exact Hy. }
  pose proof (List.filter_length_le q l) as Hq.
  destruct (p x) eqn:Hp.
  - rewrite (Hpq x (or_introl eq_refl) Hp). simpl. lia.
  - destruct (q x); simpl; lia.
Qed.

Lemma filter_nil_iff {A} (p : A -> bool) (l : list A) :
  List.filter p l = [] <-> forall x, In x l -> p x = false.
Proof.
  induction l as [|x l IH]; simpl.
  - split; [intros _ y []|reflexivity].
  - destruct (p x) eqn:Hp.
    + split; [discriminate|]. intros H. rewrite (H x (or_introl eq_refl)) in Hp. discriminate.
    + rewrite IH. split.
      * intros H y [<-|Hy]; [exact Hp | apply H, Hy].
      * intros H y Hy. apply H. right. exact Hy.
Qed.

Lemma filter_length_full_iff {A} (p : A -> bool) (l : list A) :
  length (List.filter p l) = length l <-> forall x, In x l -> p x = true.
Proof.
  induction l as [|x l IH]; simpl.
  - split; [intros _ y []|reflexivity].
  - pose proof (List.filter_length_le p l) as Hle. destruct (p x) eqn:Hp; simpl.
    + split.
      * intros H y [<-|Hy]; [exact Hp|]. apply IH; [lia | exact Hy].
      * intros H. f_equal. apply IH. intros y Hy. apply H. right. exact Hy.
    + split; [lia|]. intros H. rewrite (H x (or_introl eq_refl)) in Hp. discriminate.
Qed.

Lemma term_matches_true_iff ings term :
  term_matches ings term = true
  <-> exists ing, In ing ings /\ 75 < partial_ratio term (lower ing).
Proof.
  unfold term_matches. rewrite existsb_exists.
  split; intros (ing & Hin & H); exists ing; (split; [exact Hin|]);
    apply Z.ltb_lt; exact H.
Qed.

Lemma term_matches_false_iff ings term :
  term_matches ings term = false
  <-> forall ing, In ing ings -> partial_ratio term (lower ing) <= 75.
Proof.
  rewrite <- not_true_iff_false, term_matches_true_iff. split.
  - intros Hno ing Hin. destruct (Z.le_gt_cases (partial_ratio term (lower ing)) 75) as [|Hgt];
      [assumption|]. exfalso. apply Hno. exists ing. split; [exact Hin | lia].
  - intros Hall (ing & Hin & Hgt). specialize (Hall ing Hin). lia.
Qed.

(** X1. The score of two term lists put together is the sum of their scores:
    every term is scored on its own. *)
Theorem match_score_app (terms1 terms2 ings : list string) :
  _calculate_match_score (terms1 ++ terms2) ings
  = _calculate_match_score terms1 ings + _calculate_match_score terms2 ings.
Proof.
  rewrite !match_score_count. unfold matching_terms.
  rewrite List.filter_app, List.length_app. lia.
Qed.

(** X2. A recipe that has every ingredient of another one, in any order and
    with any repetition, scores at least as much. *)
Theorem match_score_more_ingredients (terms ings ings' : list string) :
  incl ings ings' ->
  _calculate_match_score terms ings <= _calculate_match_score terms ings'.
Proof.
  intros Hincl. rewrite !match_score_count. apply inj_le. unfold matching_terms.
  apply filter_length_mono. intros term _. rewrite !term_matches_true_iff.
  intros (ing & Hin & Hgt). exists ing. split; [apply Hincl, Hin | exact Hgt].
Qed.

(** X3. The score is 0 exactly when no term has a ratio above 75 with any
    lower-cased ingredient. *)
Theorem match_score_zero_iff (terms ings : list string) :
  _calculate_match_score terms ings = 0
  <-> forall term ing, In term terms -> In ing ings ->
                       partial_ratio term (lower ing) <= 75.
Proof.
  rewrite match_score_count. unfold matching_terms.
  rewrite <- Nat2Z.inj_0, Nat2Z.inj_iff, List.length_zero_iff_nil, filter_nil_iff.
  split.
  - intros H term ing Hterm. apply term_matches_false_iff, H, Hterm.
  - intros H term Hterm. apply term_matches_false_iff. intros ing. apply H, Hterm.
Qed.

(** X4. The score reaches the number of terms exactly when every term has an
    ingredient with a ratio above 75. *)
Theorem match_score_full_iff (terms ings : list string) :
  _calculate_match_score terms ings = Z.of_nat (length terms)
  <-> forall term, In term terms ->
        exists ing, In ing ings /\ 75 < partial_ratio term (lower ing).
Proof.
  rewrite match_score_count, Nat2Z.inj_iff. unfold matching_terms.
  rewrite filter_length_full_iff. split.
  - intros H term Hterm. apply term_matches_true_iff, H, Hterm.
  - intros H term Hterm. apply term_matches_true_iff, H, Hterm.
Qed.

End MatchScoreAlgebra.

(** ** More on [find_recipes] *)

Section FindRecipesRanking.

Lemma collect_matches_matching_rows terms rows :
  collect_matches terms rows
  = map (fun row => match_of_row row (_calculate_match_score terms (Row.ingredients row)))
        (matching_rows terms rows).
Proof. apply collect_matches_catalog_order. Qed.

Lemma collect_matches_length terms rows :
  length (collect_matches terms rows) = length (matching_rows terms rows).
Proof. rewrite collect_matches_matching_rows. apply List.length_map. Qed.

Lemma sort_by_score_desc_length l : length (sort_by_score_desc l) = length l.
Proof. apply Permutation_length, sort_by_score_desc_perm. Qed.

Lemma firstn_In {A} k (l : list A) x : In x (firstn k l) -> In x l.
Proof.
  intros Hin. rewrite <- (firstn_skipn k l). apply in_or_app. left. exact Hin.
Qed.

Lemma find_recipes_In_matches terms limit self m :
  In m (Method.result (find_recipes terms limit) self) ->
  In m (collect_matches terms (df self)).
Proof.
  rewrite find_recipes_result.
  destruct (slice_to_firstn (sort_by_score_desc (collect_matches terms (df self))) limit)
    as [k ->].
  intros Hin. apply firstn_In in Hin.
  apply (Permutation_in _ (sort_by_score_desc_perm _)), Hin.
Qed.

Lemma results_are_rows terms limit self :
  Forall
    (fun m => exists row,
       In row (df self)
       /\ 0 < _calculate_match_score terms (Row.ingredients row)
       /\ m = match_of_row row (_calculate_match_score terms (Row.ingredients row)))
    (Method.result (find_recipes terms limit) self).
Proof.
  rewrite List.Forall_forall. intros m Hin.
  apply find_recipes_In_matches in Hin.
  rewrite collect_matches_matching_rows, in_map_iff in Hin.
  destruct Hin as (row & <- & Hrow). unfold matching_rows in Hrow.
  apply filter_In in Hrow as [Hrow Hpos]. exists row.
  split; [exact Hrow|]. split; [|reflexivity].
  apply Z.gtb_lt in Hpos. exact Hpos.
Qed.

(** X5. Every result is the dict of a row of the catalog: its id, name,
    ingredients, steps and ingredient count are the row's, its time is the
    row's minutes and its score is the (positive) match score of the row. *)
Theorem find_recipes_results_are_rows terms limit self :
  Forall
    (fun m => exists row,
       In row (df self)
       /\ 0 < _calculate_match_score terms (Row.ingredients row)
       /\ m = match_of_row row (_calculate_match_score terms (Row.ingredients row)))
    (Method.result (find_recipes terms limit) self).
Proof. exact (results_are_rows terms limit self). Qed.

(** X6. No result scores more than the number of query terms: with the lower
    bound, [1 <= score <= len(user_ingredients)]. *)
Theorem find_recipes_scores_within_terms terms limit self :
  Forall (fun m => 1 <= Match.score m <= Z.of_nat (length terms))
         (Method.result (find_recipes terms limit) self).
Proof.
  pose proof (results_are_rows terms limit self) as Hrows.
  rewrite List.Forall_forall in Hrows |- *. intros m Hin.
  destruct (Hrows m Hin) as (row & _ & Hpos & ->). cbn [Match.score match_of_row].
  split; [lia|]. rewrite match_score_count.
  apply inj_le, matching_terms_length.
Qed.

Lemma results_length terms limit self :
  let n := Z.of_nat (length (matching_rows terms (df self))) in
  Z.of_nat (length (Method.result (find_recipes terms limit) self))
  = if 0 <=? limit then Z.min limit n else Z.max 0 (n + limit).
Proof.
  cbv zeta. rewrite find_recipes_result. unfold slice_to.
  rewrite <- collect_matches_length, <- (sort_by_score_desc_length (collect_matches _ _)).
  destruct (Z.leb_spec 0 limit); rewrite length_firstn; lia.
Qed.


Lemma sorted_app_scores l1 : forall l2,
  Sorted score_desc (l1 ++ l2) ->
  forall a b, In a l1 -> In b l2 -> Match.score b <= Match.score a.
Proof.
  induction l1 as [|x l1 IH]; intros l2 Hs a b Ha Hb; [destruct Ha|].
  destruct Ha as [<-|Ha].
  - apply (sorted_head_max x (l1 ++ l2)); [exact Hs|].
    right. apply in_or_app. right. exact Hb.
  - apply (IH l2); [inversion Hs; assumption | exact Ha | exact Hb].
Qed.

(** X8. What is left out is never better than what is returned: the matches
    split into the results and a rest, and nothing in the rest scores more
    than any result. *)
Theorem find_recipes_keeps_the_best terms limit self :
  exists rest,
    Permutation (Method.result (find_recipes terms limit) self ++ rest)
                (collect_matches terms (df self))
    /\ forall a b,
         In a (Method.result (find_recipes terms limit) self) -> In b rest ->
         Match.score b <= Match.score a.
Proof.
  rewrite find_recipes_result.
  destruct (slice_to_firstn (sort_by_score_desc (collect_matches terms (df self))) limit)
    as [k ->].
  exists (skipn k (sort_by_score_desc (collect_matches terms (df self)))). split.
  - rewrite firstn_skipn. apply sort_by_score_desc_perm.
  - apply sorted_app_scores. rewrite firstn_skipn. apply sort_by_score_desc_sorted.
Qed.

(** X9. A limit that is not below the number of rows of positive score cuts
    nothing off: the results are all the matches, ranked. *)
Theorem find_recipes_all_when_limit_large terms limit self :
  Z.of_nat (length (matching_rows terms (df self))) <= limit ->
  Method.result (find_recipes terms limit) self
  = sort_by_score_desc (collect_matches terms (df self))
  /\ Permutation (Method.result (find_recipes terms limit) self)
                 (collect_matches terms (df self)).
Proof.
  intros Hlimit.
  assert (Method.result (find_recipes terms limit) self
          = sort_by_score_desc (collect_matches terms (df self))) as ->.
  { rewrite find_recipes_result. unfold slice_to.
    assert (0 <= limit) as Hpos by lia. apply Z.leb_le in Hpos. rewrite Hpos.
    apply firstn_all2.
    rewrite sort_by_score_desc_length, collect_matches_length. lia. }
  split; [reflexivity | apply sort_by_score_desc_perm].
Qed.

(** X10. Asking for fewer results gives the first of what a larger limit gives. *)
Theorem find_recipes_limit_prefix terms limit limit' self :
  0 <= limit <= limit' ->
  Method.result (find_recipes terms limit) self
  = firstn (Z.to_nat limit) (Method.result (find_recipes terms limit') self).
Proof.
  intros [Hlo Hle]. rewrite !find_recipes_result. unfold slice_to.
  assert ((0 <=? limit) = true) as -> by (apply Z.leb_le; lia).
  assert ((0 <=? limit') = true) as -> by (apply Z.leb_le; lia).
  rewrite firstn_firstn. f_equal. lia.
Qed.

Lemma matching_rows_nil_iff terms rows :
  matching_rows terms rows = []
  <-> forall row, In row rows -> _calculate_match_score terms (Row.ingredients row) = 0.
Proof.
  unfold matching_rows. rewrite filter_nil_iff. split; intros H row Hrow.
  - specialize (H row Hrow). rewrite Z.gtb_ltb in H. apply Z.ltb_ge in H.
    rewrite match_score_count in H |- *. lia.
  - rewrite (H row Hrow). reflexivity.
Qed.

(** X11. With a limit of at least 1, nothing is found exactly when every row of
    the catalog scores 0; an empty catalog is one such case. *)
Theorem find_recipes_empty_iff terms limit self :
  1 <= limit ->
  Method.result (find_recipes terms limit) self = []
  <-> forall row, In row (df self) ->
                  _calculate_match_score terms (Row.ingredients row) = 0.
Proof.
  intros Hlimit. rewrite <- matching_rows_nil_iff, <- !List.length_zero_iff_nil.
  pose proof (results_length terms limit self) as Hlen. cbv zeta in Hlen.
  assert ((0 <=? limit) = true) as Hpos by (apply Z.leb_le; lia).
  rewrite Hpos in Hlen. lia.
Qed.

Lemma match_score_perm terms terms' ings :
  Permutation terms terms' ->
  _calculate_match_score terms ings = _calculate_match_score terms' ings.
Proof.
  intros Hperm. rewrite !match_score_count. f_equal. apply Permutation_length.
  unfold matching_terms. induction Hperm; simpl.
  - constructor.
  - destruct (term_matches ings x); [constructor|]; assumption.
  - destruct (term_matches ings x), (term_matches ings y);
      solve [apply perm_swap | apply Permutation_refl].
  - etransitivity; eassumption.
Qed.

Lemma collect_matches_perm terms terms' rows :
  Permutation terms terms' -> collect_matches terms rows = collect_matches terms' rows.
Proof.
  intros Hperm. induction rows as [|row rows IH]; [reflexivity|].
  rewrite !collect_matches_cons, IH, (match_score_perm _ _ _ Hperm). reflexivity.
Qed.

(** X12. The order of the query terms does not change the search: whatever order
    [list(set(...))] hands the terms over in, the same results come back in
    the same order. *)
Theorem find_recipes_terms_order_irrelevant terms terms' limit self :
  Permutation terms terms' ->
  find_recipes terms limit self = find_recipes terms' limit self.
Proof.
  intros Hperm. rewrite !find_recipes_run, (collect_matches_perm _ _ _ Hperm).
  reflexivity.
Qed.

End FindRecipesRanking.

(** ** More on [extract_ingredients] *)

Section ExtractIngredientsSize.

(** X13. The terms are no more than the tokens that qualify, so no more than the
    tokens of the text: repeated mentions of an ingredient give one term. *)
Theorem extract_ingredients_length (text : string) :
  (length (extract_ingredients text)
   <= length (List.filter keep_token (nlp (lower text)))
   <= length (nlp (lower text)))%nat.
Proof.
  split; [|apply List.filter_length_le].
  rewrite <- (List.length_map Token.lemma_), <- collect_lemmas_filter.
  apply List.NoDup_incl_length.
  - unfold extract_ingredients. apply NoDup_ListNoDup, NoDup_elements.
  - intros term Hin. unfold extract_ingredients in Hin.
    rewrite <- list_elem_of_In, elem_of_elements, elem_of_list_to_set, list_elem_of_In in Hin.
    exact Hin.
Qed.

End ExtractIngredientsSize.

(** ** The command loop *)

Section CommandLoop.

Lemma py_index_in_range {A} (l : list A) (number : Z) :
  1 <= number <= Z.of_nat (length l) ->
  exists x, nth_error l (Z.to_nat (number - 1)) = Some x
            /\ py_index l (number - 1) = Some x.
Proof.
  intros Hrange. unfold py_index.
  assert ((0 <=? number - 1) = true) as -> by (apply Z.leb_le; lia).
  destruct (nth_error l (Z.to_nat (number - 1))) as [x|] eqn:Hnth.
  - exists x. split; reflexivity.
  - apply nth_error_None in Hnth. lia.
Qed.

(** X16. A numeric answer between 1 and the number of listed recipes shows the
    details of the recipe listed under that number, and nothing is raised. *)
Theorem view_details_shows_listed_recipe recipes choice number :
  isdigit choice = true ->
  int_of choice = Some number ->
  1 <= number <= Z.of_nat (length recipes) ->
  exists recipe,
    nth_error recipes (Z.to_nat (number - 1)) = Some recipe
    /\ view_details recipes choice = ([Print (format_recipe recipe)], None).
Proof.
  intros Hdigit Hint Hrange. destruct (py_index_in_range recipes number Hrange)
    as (recipe & Hnth & Hidx).
  exists recipe. split; [exact Hnth|]. unfold view_details.
  rewrite Hdigit, Hint, Hidx.
  assert ((1 <=? number) && (number <=? Z.of_nat (length recipes)) = true) as ->.
  { apply andb_true_iff. split; apply Z.leb_le; lia. }
  reflexivity.
Qed.

(** X17. An answer that is not numeric, or whose number is below 1 or above the
    number of listed recipes, shows nothing and raises nothing. *)
Theorem view_details_ignores_other_answers recipes choice :
  isdigit choice = false
  \/ (exists number, int_of choice = Some number
                     /\ (number < 1 \/ Z.of_nat (length recipes) < number)) ->
  view_details recipes choice = ([], None).
Proof.
  intros [Hdigit | (number & Hint & Hout)]; unfold view_details.
  - rewrite Hdigit. reflexivity.
  - destruct (isdigit choice); [|reflexivity]. rewrite Hint.
    assert ((1 <=? number) && (number <=? Z.of_nat (length recipes)) = false) as ->;
      [|reflexivity].
    apply andb_false_iff. destruct Hout; [left | right]; apply Z.leb_gt; lia.
Qed.

Lemma view_details_no_index_error recipes choice :
  snd (view_details recipes choice) <> Some IndexError.
Proof.
  unfold view_details. destruct (isdigit choice); [|discriminate].
  destruct (int_of choice) as [number|]; [|discriminate].
  destruct ((1 <=? number) && (number <=? Z.of_nat (length recipes))) eqn:Hguard;
    [|discriminate].
  apply andb_true_iff in Hguard as [H1 H2]. apply Z.leb_le in H1, H2.
  destruct (py_index_in_range recipes number (conj H1 H2)) as (recipe & _ & ->).
  discriminate.
Qed.

Lemma quit_test line :
  existsb (String.eqb (lower (strip line))) ["quit"; "exit"]%string = true
  <-> quits line.
Proof.
  unfold quits. cbn [existsb]. rewrite orb_false_r, orb_true_iff, !String.eqb_eq.
  reflexivity.
Qed.

(** What [main_loop] does with one more line, case by case. *)
Lemma main_loop_cases self line rest :
  (quits line /\ snd (main_loop self (line :: rest)) = None)
  \/ (~ quits line
      /\ (snd (main_loop self (line :: rest)) = snd (main_loop self rest)
          \/ snd (main_loop self (line :: rest)) = Some EOFError
          \/ exists choice rest' recipes,
               rest = choice :: rest'
               /\ (snd (main_loop self (line :: rest)) = snd (main_loop self rest')
                   \/ (snd (main_loop self (line :: rest))
                       = snd (view_details recipes choice)
                       /\ snd (view_details recipes choice) <> None)))).
Proof.
  cbn [main_loop].
  destruct (existsb (String.eqb (lower (strip line))) ["quit"; "exit"]%string) eqn:Hquit.
  - left. split; [apply quit_test, Hquit | reflexivity].
  - right. split; [rewrite <- quit_test, Hquit; discriminate|].
    rewrite find_recipes_run.
    destruct (slice_to _ 5) as [|recipe recipes].
    + left. destruct (main_loop self rest). reflexivity.
    + right. destruct rest as [|choice rest']; [left; reflexivity|].
      right. exists choice, rest', (recipe :: recipes). split; [reflexivity|].
      destruct (view_details (recipe :: recipes) choice) as [shown [e|]].
      * right. split; [reflexivity | discriminate].
      * left. destruct (main_loop self rest'). reflexivity.
Qed.

Lemma main_loop_no_index_error self : forall n inputs,
  (length inputs <= n)%nat -> snd (main_loop self inputs) <> Some IndexError.
Proof.
  induction n as [|n IH]; intros [|line rest] Hlen; try discriminate.
  - simpl in Hlen. lia.
  - simpl in Hlen.
    destruct (main_loop_cases self line rest)
      as [[_ ->] | [_ [-> | [-> | (choice & rest' & recipes & -> & [-> | [-> _]])]]]].
    + discriminate.
    + apply IH. lia.
    + discriminate.
    + apply IH. simpl in Hlen. lia.
    + apply view_details_no_index_error.
Qed.

(** X18. No run of [main] ends in [IndexError]: [recipes[int(choice)-1]] is only
    reached with an index inside the list. *)
Theorem main_never_raises_index_error self inputs :
  snd (main self inputs) <> Some IndexError.
Proof.
  unfold main. pose proof (main_loop_no_index_error self _ inputs (le_n _)) as H.
  destruct (main_loop self inputs). exact H.
Qed.

Lemma main_loop_returns_on_quit self : forall n inputs,
  (length inputs <= n)%nat ->
  snd (main_loop self inputs) = None -> exists line, In line inputs /\ quits line.
Proof.
  induction n as [|n IH]; intros [|line rest] Hlen Hend; try discriminate.
  - simpl in Hlen. lia.
  - simpl in Hlen.
    destruct (main_loop_cases self line rest)
      as [[Hquit _] | [_ [Heq | [Heq | (choice & rest' & recipes & -> & [Heq | [Heq Hraised]])]]]].
    + exists line. split; [left; reflexivity | exact Hquit].
    + rewrite Heq in Hend. destruct (IH rest) as (q & Hin & Hq); [lia | exact Hend|].
      exists q. split; [right; exact Hin | exact Hq].
    + rewrite Heq in Hend. discriminate.
    + rewrite Heq in Hend. simpl in Hlen.
      destruct (IH rest') as (q & Hin & Hq); [lia | exact Hend|].
      exists q. split; [right; right; exact Hin | exact Hq].
    + rewrite Heq in Hend. contradiction.
Qed.

(** X19. [main] returns only on a quit command: a run that ends without an
    exception has read a line that is [quit] or [exit] once stripped and
    lower-cased. *)
Theorem main_returns_only_on_quit self inputs :
  snd (main self inputs) = None ->
  exists line,
    In line inputs
    /\ (lower (strip line) = "quit"%string \/ lower (strip line) = "exit"%string).
Proof.
  unfold main. pose proof (main_loop_returns_on_quit self _ inputs (le_n _)) as H.
  destruct (main_loop self inputs). exact H.
Qed.

End CommandLoop.

End RecipeGenerator.

(** ** [format_recipe] and reading it back *)

Section FormatRecipe.

Lemma split_lines_nl s : split_lines (nl +:+ s) = EmptyString :: split_lines s.
Proof. reflexivity. Qed.

Lemma split_lines_String c s :
  split_lines (String c s)
  = if Ascii.eqb c LF then EmptyString :: split_lines s
    else match split_lines s with
         | [] => [String c EmptyString]
         | line :: lines => String c line :: lines
         end.
Proof. reflexivity. Qed.

Lemma split_lines_line a : forall s,
  one_line a = true -> split_lines (a +:+ nl +:+ s) = a :: split_lines s.
Proof.
  induction a as [|c a IH]; intros s Hone; [reflexivity|].
  simpl in Hone. apply andb_true_iff in Hone as [Hc Ha].
  apply negb_true_iff in Hc.
  change (String c a +:+ nl +:+ s) with (String c (a +:+ nl +:+ s)).
  rewrite split_lines_String, Hc, (IH s Ha). reflexivity.
Qed.

Lemma append_assoc a b c : (a +:+ b) +:+ c = a +:+ b +:+ c.
Proof.
  induction a as [|x a IH]; [reflexivity|].
  change (String x ((a +:+ b) +:+ c) = String x (a +:+ b +:+ c)).
  rewrite IH. reflexivity.
Qed.

Lemma one_line_app a b : one_line (a +:+ b) = one_line a && one_line b.
Proof.
  induction a as [|c a IH]; [reflexivity|].
  change (String c a +:+ b) with (String c (a +:+ b)).
  simpl. rewrite IH, andb_assoc. reflexivity.
Qed.

Lemma one_line_uint d : one_line (NilEmpty.string_of_uint d) = true.
Proof. induction d; simpl; auto. Qed.

Lemma one_line_str_int n : one_line (str_int n) = true.
Proof.
  unfold str_int. destruct (Z.to_int n) as [d|d]; simpl;
    destruct d; simpl; auto using one_line_uint.
Qed.

Lemma step_lines_numbered steps : forall i,
  map step_line (enumerate_from i steps) = numbered_from (i + 1) steps.
Proof.
  induction steps as [|step steps IH]; intros i; simpl; [reflexivity|].
  rewrite IH. reflexivity.
Qed.

(** The rendering: the heading, the ingredient lines, an empty line,
    [Steps:] and the steps numbered from 1. *)
Lemma format_recipe_layout recipe :
  format_recipe recipe
  = heading recipe
      +:+ nl +:+ String.concat nl (map ingredient_line (Match.ingredients recipe))
      +:+ nl +:+ nl +:+ "Steps:"
      +:+ nl +:+ String.concat nl (numbered_from 1 (Match.steps recipe)).
Proof.
  unfold format_recipe, heading, enumerate. cbv zeta.
  rewrite step_lines_numbered, !append_assoc. reflexivity.
Qed.


Lemma ingredient_line_prefix ing : String.prefix "- " (ingredient_line ing) = true.
Proof. destruct ing; reflexivity. Qed.

Lemma ingredient_line_drop ing : drop_chars 2 (ingredient_line ing) = ing.
Proof. reflexivity. Qed.

Lemma one_line_ingredient_line ing :
  one_line ing = true -> one_line (ingredient_line ing) = true.
Proof. intros Hone. unfold ingredient_line. rewrite one_line_app, Hone. reflexivity. Qed.


Lemma map_ingredient_line_drop ings : map (drop_chars 2) (map ingredient_line ings) = ings.
Proof.
  induction ings as [|ing ings IH]; [reflexivity|].
  cbn [map]. rewrite IH, ingredient_line_drop. reflexivity.
Qed.




(** A line feed in the name alone is enough to lose the ingredients, even
    when every ingredient is a single line. *)
Lemma stews_render_alike :
  format_recipe stew_a = format_recipe stew_b
  /\ Match.ingredients stew_a <> Match.ingredients stew_b
  /\ Forall (fun ing => one_line ing = true) (Match.ingredients stew_a)
  /\ Forall (fun ing => one_line ing = true) (Match.ingredients stew_b).
Proof.
  split; [vm_compute; reflexivity|]. split; [discriminate|].
  split; repeat constructor.
Qed.

End FormatRecipe.

(** ** The lines of a rendering *)

Section FormatRecipeLines.

Lemma split_lines_one_line a : one_line a = true -> split_lines a = [a].
Proof.
  induction a as [|c a IH]; intros Hone; [reflexivity|].
  simpl in Hone. apply andb_true_iff in Hone as [Hc Ha]. apply negb_true_iff in Hc.
  rewrite split_lines_String, Hc, (IH Ha). reflexivity.
Qed.

Lemma split_lines_block lines :
  Forall (fun line => one_line line = true) lines ->
  split_lines (String.concat nl lines) = block lines.
Proof.
  induction 1 as [|line lines Hline Hlines IH]; [reflexivity|].
  destruct lines as [|line' lines].
  - apply split_lines_one_line, Hline.
  - change (String.concat nl (line :: line' :: lines))
      with (line +:+ nl +:+ String.concat nl (line' :: lines)).
    rewrite (split_lines_line line _ Hline), IH. reflexivity.
Qed.

Lemma split_lines_block_then lines rest :
  Forall (fun line => one_line line = true) lines ->
  split_lines (String.concat nl lines +:+ nl +:+ rest) = block lines ++ split_lines rest.
Proof.
  induction 1 as [|line lines Hline Hlines IH]; [reflexivity|].
  destruct lines as [|line' lines].
  - apply split_lines_line, Hline.
  - change (String.concat nl (line :: line' :: lines))
      with (line +:+ nl +:+ String.concat nl (line' :: lines)).
    rewrite !append_assoc, (split_lines_line line _ Hline), IH. reflexivity.
Qed.

Lemma one_line_ingredient_lines ings :
  Forall (fun ing => one_line ing = true) ings ->
  Forall (fun line => one_line line = true) (map ingredient_line ings).
Proof.
  induction 1; constructor; [apply one_line_ingredient_line|]; assumption.
Qed.

Lemma one_line_numbered steps : forall k,
  Forall (fun step => one_line step = true) steps ->
  Forall (fun line => one_line line = true) (numbered_from k steps).
Proof.
  induction steps as [|step steps IH]; intros k Hall; [constructor|].
  inversion Hall as [|? ? Hstep Hsteps]; subst. constructor; [|apply IH, Hsteps].
  rewrite !one_line_app, one_line_str_int, Hstep. reflexivity.
Qed.

Lemma heading_split recipe rest :
  one_line (Match.name recipe) = true ->
  split_lines (heading recipe +:+ nl +:+ rest)
  = [ EmptyString;
      "Recipe: " +:+ Match.name recipe +:+ " (ID: " +:+ str_int (Match.id recipe) +:+ ")";
      "Time: " +:+ str_int (Match.time recipe) +:+ " minutes";
      EmptyString;
      "Ingredients (" +:+ str_int (Match.n_ingredients recipe) +:+ "):" ]
    ++ split_lines rest.
Proof.
  intros Hname. unfold heading.
  set (title := "Recipe: " +:+ _). set (time := "Time: " +:+ _).
  set (count := "Ingredients (" +:+ _).
  rewrite !append_assoc, split_lines_nl.
  rewrite (split_lines_line title), (split_lines_line time),
    (split_lines_line EmptyString), (split_lines_line count);
    subst title time count;
    rewrite ?one_line_app, ?one_line_str_int, ?Hname; reflexivity.
Qed.

Lemma rendering_lines (recipe : Match.t) :
  one_line (Match.name recipe) = true ->
  Forall (fun ing => one_line ing = true) (Match.ingredients recipe) ->
  Forall (fun step => one_line step = true) (Match.steps recipe) ->
  split_lines (format_recipe recipe)
  = [ EmptyString;
      "Recipe: " +:+ Match.name recipe +:+ " (ID: " +:+ str_int (Match.id recipe) +:+ ")";
      "Time: " +:+ str_int (Match.time recipe) +:+ " minutes";
      EmptyString;
      "Ingredients (" +:+ str_int (Match.n_ingredients recipe) +:+ "):" ]
    ++ block (map ingredient_line (Match.ingredients recipe))
    ++ [ EmptyString; "Steps:"%string ]
    ++ block (numbered_from 1 (Match.steps recipe)).
Proof.
  intros Hname Hings Hsteps.
  rewrite format_recipe_layout, (heading_split _ _ Hname).
  rewrite (split_lines_block_then _ _ (one_line_ingredient_lines _ Hings)).
  rewrite split_lines_nl, (split_lines_line "Steps:") by reflexivity.
  rewrite (split_lines_block _ (one_line_numbered _ 1 Hsteps)). reflexivity.
Qed.


Lemma append_inj_l a x y : a +:+ x = a +:+ y -> x = y.
Proof.
  induction a as [|c a IH]; intros Heq; [exact Heq|].
  change (String c (a +:+ x) = String c (a +:+ y)) in Heq.
  injection Heq as Heq. apply IH, Heq.
Qed.

Lemma append_empty_r a b : a +:+ b = EmptyString -> b = EmptyString.
Proof. destruct a; [intros H; exact H | discriminate]. Qed.

Lemma numbered_from_inj steps1 : forall k steps2,
  numbered_from k steps1 = numbered_from k steps2 -> steps1 = steps2.
Proof.
  induction steps1 as [|step1 steps1 IH]; intros k [|step2 steps2] Heq;
    try reflexivity; try discriminate.
  simpl in Heq. injection Heq as Hline Hrest.
  apply append_inj_l, append_inj_l in Hline. subst step2.
  f_equal. apply (IH _ _ Hrest).
Qed.

Lemma numbered_line_not_empty k step rest :
  [EmptyString] <> (str_int k +:+ ". " +:+ step) :: rest.
Proof.
  intros Heq. injection Heq as Hline _. symmetry in Hline.
  apply append_empty_r in Hline. discriminate.
Qed.

Lemma numbered_block_inj k steps1 steps2 :
  block (numbered_from k steps1) = block (numbered_from k steps2) -> steps1 = steps2.
Proof.
  destruct steps1 as [|step1 steps1], steps2 as [|step2 steps2]; cbn [numbered_from block].
  - reflexivity.
  - intros Heq. destruct (numbered_line_not_empty _ _ _ Heq).
  - intros Heq. symmetry in Heq. destruct (numbered_line_not_empty _ _ _ Heq).
  - intros Heq. apply (numbered_from_inj (step1 :: steps1) k (step2 :: steps2)). exact Heq.
Qed.

Lemma take_while_ingredient_block ings rest :
  take_while (String.prefix "- ") (block (map ingredient_line ings) ++ EmptyString :: rest)
  = map ingredient_line ings.
Proof.
  assert (forall l, take_while (String.prefix "- ")
                      (map ingredient_line l ++ EmptyString :: rest)
                    = map ingredient_line l) as Hlines.
  { induction l as [|x l IH]; [reflexivity|].
    cbn [map app take_while]. rewrite ingredient_line_prefix, IH. reflexivity. }
  destruct ings as [|ing ings]; [reflexivity|]. apply (Hlines (ing :: ings)).
Qed.

(** X15. Two results whose names, ingredients and steps are single lines and
    whose renderings are equal have the same ingredients and the same
    steps: the display never shows two different recipes alike. *)
Theorem format_recipe_same_rendering (a b : Match.t) :
  one_line (Match.name a) = true ->
  Forall (fun ing => one_line ing = true) (Match.ingredients a) ->
  Forall (fun step => one_line step = true) (Match.steps a) ->
  one_line (Match.name b) = true ->
  Forall (fun ing => one_line ing = true) (Match.ingredients b) ->
  Forall (fun step => one_line step = true) (Match.steps b) ->
  format_recipe a = format_recipe b ->
  Match.ingredients a = Match.ingredients b /\ Match.steps a = Match.steps b.
Proof.
  intros Hna Hia Hsa Hnb Hib Hsb Heq.
  apply (f_equal split_lines) in Heq.
  rewrite (rendering_lines a Hna Hia Hsa), (rendering_lines b Hnb Hib Hsb) in Heq.
  injection Heq as _ _ _ Hbody.
  assert (Match.ingredients a = Match.ingredients b) as Hings.
  { apply (f_equal (take_while (String.prefix "- "))) in Hbody.
    cbn [app] in Hbody. rewrite !take_while_ingredient_block in Hbody.
    apply (f_equal (map (drop_chars 2))) in Hbody.
    rewrite !map_ingredient_line_drop in Hbody. exact Hbody. }
  split; [exact Hings|]. rewrite Hings in Hbody.
  apply app_inv_head in Hbody. injection Hbody as Hsteps.
  apply (numbered_block_inj 1), Hsteps.
Qed.

End FormatRecipeLines.

(** * The properties on examples *)

Example sample_search :
  map (fun m => (Match.id m, Match.score m))
      (Method.result (find_recipes occurs_ratio ascii_lower ["egg"; "butter"] 5)
                     sample_generator)
  = [(2, 2); (4, 2); (1, 1)].
Proof. vm_compute. reflexivity. Qed.

Example sample_extract :
  extract_ingredients ascii_lower sample_nlp "I have Eggs and butter and eggs"
  = ["egg"; "butter"].
Proof. vm_compute. reflexivity. Qed.

Example sample_format :
  split_lines (format_recipe (Match.mk 4 "fried egg" 4 2 ["eggs"; "butter"] ["fry"; "serve"] 2))
  = [""; "Recipe: fried egg (ID: 4)"; "Time: 4 minutes"; "";
     "Ingredients (2):"; "- eggs"; "- butter"; ""; "Steps:"; "1. fry"; "2. serve"]%string.
Proof. vm_compute. reflexivity. Qed.

Example score_egg_butter_flour :
  _calculate_match_score occurs_ratio ascii_lower ["egg"; "butter"] ["egg"; "butter"; "flour"] = 2.
Proof. reflexivity. Qed.

Example score_garlic :
  Method.result
    (find_recipes occurs_ratio ascii_lower ["garlic"] 5)
    {| df := [Row.mk 1 "stir fry" 15 ["onion"; "pepper"] ["fry"] 2] |} = [].
Proof. reflexivity. Qed.

Example score_at_threshold :
  _calculate_match_score ratio_75 ascii_lower ["egg"] ["egg"] = 0.
Proof. reflexivity. Qed.

Example repeated_term_counts_twice :
  _calculate_match_score occurs_ratio ascii_lower ["egg"; "egg"] ["Eggs"] = 2.
Proof. reflexivity. Qed.

Example limit_one :
  map Match.id
    (Method.result (find_recipes occurs_ratio ascii_lower ["egg"; "butter"] 1) sample_generator)
  = [2].
Proof. vm_compute. reflexivity. Qed.

Example negative_limit_drops_last :
  map Match.id
    (Method.result (find_recipes occurs_ratio ascii_lower ["egg"; "butter"] (-1)) sample_generator)
  = [2; 4].
Proof. vm_compute. reflexivity. Qed.

Lemma find_recipes_results_score_at_least_1_witness :
  0 < 5
  /\ Forall (fun m => 1 <= Match.score m)
       (Method.result (find_recipes occurs_ratio ascii_lower ["egg"; "butter"] 5)
                      sample_generator).
Proof.
  split; [lia|].
  apply (find_recipes_results_score_at_least_1 occurs_ratio ascii_lower
           ["egg"; "butter"] 5 sample_generator).
  lia.
Defined.

Lemma find_recipes_at_most_limit_witness :
  1 <= 2
  /\ Method.result (find_recipes occurs_ratio ascii_lower ["egg"; "butter"] 2)
                   sample_generator
     = firstn (Z.to_nat 2)
         (sort_by_score_desc
            (collect_matches occurs_ratio ascii_lower ["egg"; "butter"]
                             (df sample_generator)))
  /\ Z.of_nat (length (Method.result
                         (find_recipes occurs_ratio ascii_lower ["egg"; "butter"] 2)
                         sample_generator)) <= 2.
Proof.
  split; [lia|].
  apply (find_recipes_at_most_limit occurs_ratio ascii_lower
           ["egg"; "butter"] 2 sample_generator).
  lia.
Defined.

Example limit_two_cuts_the_ranking :
  map Match.id
    (sort_by_score_desc
       (collect_matches occurs_ratio ascii_lower ["egg"; "butter"] sample_df))
  = [2; 4; 1]
  /\ map Match.id
       (Method.result (find_recipes occurs_ratio ascii_lower ["egg"; "butter"] 2)
                      sample_generator)
     = [2; 4].
Proof. vm_compute. split; reflexivity. Qed.

Lemma match_score_permutation_invariant_witness :
  Permutation ["egg"; "butter"; "salt"]%string ["butter"; "egg"; "salt"]%string
  /\ _calculate_match_score occurs_ratio ascii_lower ["egg"; "butter"; "salt"] ["Eggs"; "Salt"]
     = _calculate_match_score occurs_ratio ascii_lower ["butter"; "egg"; "salt"] ["Eggs"; "Salt"].
Proof.
  split; [apply perm_swap|].
  apply (match_score_permutation_invariant occurs_ratio ascii_lower
           ["egg"; "butter"; "salt"]%string ["butter"; "egg"; "salt"]%string ["Eggs"; "Salt"]%string).
  apply perm_swap.
Defined.


Example session_with_a_choice :
  snd (main occurs_ratio ascii_lower sample_nlp blank_strip digits_isdigit digits_int
         sample_generator
         ["  I have Eggs and butter and eggs "; "2"; "garlic"; " QUIT "; "never read"])
  = None.
Proof. vm_compute. reflexivity. Qed.

Example session_out_of_lines :
  snd (main occurs_ratio ascii_lower sample_nlp blank_strip digits_isdigit digits_int
         sample_generator ["I have Eggs and butter and eggs"; "7"])
  = Some EOFError.
Proof. vm_compute. reflexivity. Qed.

Example negative_limit_length :
  length (Method.result (find_recipes occurs_ratio ascii_lower ["egg"; "butter"] (-2))
                        sample_generator) = 1%nat.
Proof. vm_compute. reflexivity. Qed.

Lemma match_score_more_ingredients_witness :
  incl ["Eggs"]%string ["Salt"; "Eggs"]%string
  /\ _calculate_match_score occurs_ratio ascii_lower ["egg"; "salt"] ["Eggs"]
     <= _calculate_match_score occurs_ratio ascii_lower ["egg"; "salt"] ["Salt"; "Eggs"].
Proof.
  assert (incl ["Eggs"]%string ["Salt"; "Eggs"]%string) as Hincl.
  { intros x [<-|[]]. right. left. reflexivity. }
  split; [exact Hincl|].
  apply (match_score_more_ingredients occurs_ratio ascii_lower
           ["egg"; "salt"]%string ["Eggs"]%string ["Salt"; "Eggs"]%string Hincl).
Defined.

Lemma find_recipes_all_when_limit_large_witness :
  Method.result (find_recipes occurs_ratio ascii_lower ["egg"; "butter"] 3) sample_generator
  = sort_by_score_desc (collect_matches occurs_ratio ascii_lower ["egg"; "butter"] sample_df)
  /\ Permutation
       (Method.result (find_recipes occurs_ratio ascii_lower ["egg"; "butter"] 3)
                      sample_generator)
       (collect_matches occurs_ratio ascii_lower ["egg"; "butter"] sample_df).
Proof.
  apply (find_recipes_all_when_limit_large occurs_ratio ascii_lower
           ["egg"; "butter"]%string 3 sample_generator).
  vm_compute. discriminate.
Defined.

Lemma find_recipes_limit_prefix_witness :
  Method.result (find_recipes occurs_ratio ascii_lower ["egg"; "butter"] 1) sample_generator
  = firstn (Z.to_nat 1)
      (Method.result (find_recipes occurs_ratio ascii_lower ["egg"; "butter"] 2)
                     sample_generator).
Proof.
  apply (find_recipes_limit_prefix occurs_ratio ascii_lower
           ["egg"; "butter"]%string 1 2 sample_generator).
  lia.
Defined.

Lemma find_recipes_empty_iff_witness :
  Method.result (find_recipes occurs_ratio ascii_lower ["garlic"] 5) sample_generator = []
  <-> forall row, In row (df sample_generator) ->
        _calculate_match_score occurs_ratio ascii_lower ["garlic"] (Row.ingredients row) = 0.
Proof.
  apply (find_recipes_empty_iff occurs_ratio ascii_lower ["garlic"]%string 5 sample_generator).
  lia.
Defined.

Lemma find_recipes_terms_order_irrelevant_witness :
  find_recipes occurs_ratio ascii_lower ["egg"; "butter"] 5 sample_generator
  = find_recipes occurs_ratio ascii_lower ["butter"; "egg"] 5 sample_generator.
Proof.
  apply (find_recipes_terms_order_irrelevant occurs_ratio ascii_lower
           ["egg"; "butter"]%string ["butter"; "egg"]%string 5 sample_generator).
  apply perm_swap.
Defined.

Lemma view_details_shows_listed_recipe_witness :
  exists recipe,
    nth_error [soup_a; stew_a] (Z.to_nat (2 - 1)) = Some recipe
    /\ view_details digits_isdigit digits_int [soup_a; stew_a] "2"
       = ([Print (format_recipe recipe)], None).
Proof.
  apply (view_details_shows_listed_recipe digits_isdigit digits_int
           [soup_a; stew_a] "2" 2).
  - reflexivity.
  - reflexivity.
  - simpl. lia.
Defined.

Lemma view_details_ignores_other_answers_witness :
  view_details digits_isdigit digits_int [soup_a; stew_a] "3" = ([], None).
Proof.
  apply (view_details_ignores_other_answers digits_isdigit digits_int
           [soup_a; stew_a] "3").
  right. exists 3. split; [reflexivity|]. right. simpl. lia.
Defined.

Lemma main_returns_only_on_quit_witness :
  exists line,
    In line ["garlic"; " Exit"; "never read"]%string
    /\ (ascii_lower (blank_strip line) = "quit"%string
        \/ ascii_lower (blank_strip line) = "exit"%string).
Proof.
  apply (main_returns_only_on_quit occurs_ratio ascii_lower sample_nlp blank_strip
           digits_isdigit digits_int sample_generator
           ["garlic"; " Exit"; "never read"]%string).
  vm_compute. reflexivity.
Defined.


Lemma format_recipe_same_rendering_witness :
  Match.ingredients (Match.mk 4 "fried egg" 4 2 ["eggs"; "butter"] ["fry"] 2)
  = Match.ingredients (Match.mk 4 "fried egg" 4 1 ["eggs"; "butter"] ["fry"] 2)
  /\ Match.steps (Match.mk 4 "fried egg" 4 2 ["eggs"; "butter"] ["fry"] 2)
     = Match.steps (Match.mk 4 "fried egg" 4 1 ["eggs"; "butter"] ["fry"] 2).
Proof.
  apply (format_recipe_same_rendering
           (Match.mk 4 "fried egg" 4 2 ["eggs"; "butter"] ["fry"] 2)
           (Match.mk 4 "fried egg" 4 1 ["eggs"; "butter"] ["fry"] 2)).
  - reflexivity.
  - repeat constructor.
  - repeat constructor.
  - reflexivity.
  - repeat constructor.
  - repeat constructor.
  - vm_compute. reflexivity.
Defined.
